(** * McpNp: the tool handlers of [src/mcpnp/mcpnp.py] and their response envelope

    Python [float] (and numpy [float64]) values are modelled by Rocq's
    primitive IEEE-754 binary64 floats, so that [np.add], [np.subtract],
    [np.multiply], Python's [/] and the comparison [b == 0] are the same
    operations as [PrimFloat.add], [sub], [mul], [div] and [eqb]. *)

From Stdlib Require Import QArith List String Ascii Bool ZArith Lia.
From Stdlib Require Import Floats.
Set Warnings "-inexact-float".
Import ListNotations.
Open Scope string_scope.

(** ** Facts about binary64 used by the handlers *)

Module FloatFacts.

Local Open Scope float_scope.

Definition sf_is_nan (x : spec_float) : bool :=
  match x with S754_nan => true | _ => false end.

Lemma is_nan_sf (x : float) : is_nan x = sf_is_nan (Prim2SF x).
Proof.
  unfold is_nan. rewrite eqb_spec.
  destruct (Prim2SF x) as [s|s| |s m e]; try reflexivity;
    unfold SFeqb, SFcompare; destruct s; simpl; try reflexivity;
    rewrite Z.compare_refl; change (Pos.compare_cont Eq m m) with (Pos.compare m m);
    rewrite Pos.compare_refl; reflexivity.
Qed.

(** A finite float is a zero or a finite non-zero binary64 number. *)
Lemma is_finite_sf (x : float) :
  is_finite x = true ->
  (exists s, Prim2SF x = S754_zero s) \/ (exists s m e, Prim2SF x = S754_finite s m e).
Proof.
  unfold is_finite, is_infinity. rewrite is_nan_sf, eqb_spec, abs_spec.
  assert (Hinf : Prim2SF infinity = S754_infinity false) by reflexivity.
  rewrite Hinf.
  destruct (Prim2SF x) as [s|s| |s m e]; simpl; intros H.
  - left; eauto.
  - discriminate.
  - discriminate.
  - right; eauto.
Qed.

Lemma eqb_zero_sf (x : float) :
  (x =? 0) = match Prim2SF x with S754_zero _ => true | _ => false end.
Proof.
  rewrite eqb_spec.
  assert (H0 : Prim2SF 0 = S754_zero false) by reflexivity.
  rewrite H0. destruct (Prim2SF x) as [s|s| |s m e]; try destruct s; reflexivity.
Qed.

Section IterPos.
  Context {A : Type} (P : A -> Prop) (f : A -> A).
  Hypothesis Hf : forall x, P x -> P (f x).

Lemma iter_pos_ind (p : positive) : forall x, P x -> P (iter_pos f p x).
  Proof. induction p; intros x Hx; simpl; auto. Qed.
End IterPos.

Lemma shr_1_nonneg mrs : (0 <= shr_m mrs)%Z -> (0 <= shr_m (shr_1 mrs))%Z.
Proof.
  destruct mrs as [m r s]; simpl; intros H.
  destruct m as [|p|p]; [simpl; lia| |lia]; destruct p; simpl; lia.
Qed.

Lemma shr_fexp_nonneg m e l :
  (0 <= m)%Z -> (0 <= shr_m (fst (shr_fexp prec emax m e l)))%Z.
Proof.
  intros Hm. unfold shr_fexp, shr.
  assert (H0 : (0 <= shr_m (shr_record_of_loc m l))%Z)
    by (destruct l as [|[| |]]; simpl; exact Hm).
  destruct (_ - _)%Z; simpl; auto.
  apply (iter_pos_ind (fun r => (0 <= shr_m r)%Z)); auto using shr_1_nonneg.
Qed.

Lemma round_nearest_even_nonneg mx lx :
  (0 <= mx)%Z -> (0 <= round_nearest_even mx lx)%Z.
Proof.
  intros H; destruct lx as [|[| |]]; simpl; try lia.
  destruct (Z.even mx); lia.
Qed.

Lemma binary_round_aux_not_nan sx mx ex lx :
  (0 <= mx)%Z -> binary_round_aux prec emax sx mx ex lx <> S754_nan.
Proof.
  intros Hm. unfold binary_round_aux.
  pose proof (shr_fexp_nonneg mx ex lx Hm) as H1.
  destruct (shr_fexp prec emax mx ex lx) as [r1 e1]; simpl in H1.
  pose proof (shr_fexp_nonneg (round_nearest_even (shr_m r1) (loc_of_shr_record r1)) e1
                loc_Exact (round_nearest_even_nonneg _ _ H1)) as H2.
  destruct (shr_fexp prec emax _ e1 loc_Exact) as [r2 e2]; simpl in H2.
  destruct (shr_m r2); try discriminate; [|lia].
  destruct (e2 <=? emax - prec)%Z; discriminate.
Qed.

Lemma binary_normalize_not_nan m e b :
  binary_normalize prec emax m e b <> S754_nan.
Proof.
  destruct m as [|p|p]; simpl; try discriminate;
    unfold binary_round; destruct (shl_align _ _ _) as [mz ez];
    apply binary_round_aux_not_nan; lia.
Qed.

Lemma add_finite_not_nan x y :
  is_finite x = true -> is_finite y = true -> is_nan (x + y) = false.
Proof.
  intros Hx Hy. rewrite is_nan_sf, add_spec.
  destruct (is_finite_sf x Hx) as [[sx ->]|[sx [mx [ex ->]]]];
  destruct (is_finite_sf y Hy) as [[sy ->]|[sy [my [ey ->]]]];
    unfold SF64add, SFadd; try (destruct sx, sy; reflexivity).
  destruct (binary_normalize _ _ _ _ _) eqn:E; try reflexivity.
  exfalso; exact (binary_normalize_not_nan _ _ _ E).
Qed.

Lemma sub_finite_not_nan x y :
  is_finite x = true -> is_finite y = true -> is_nan (x - y) = false.
Proof.
  intros Hx Hy. rewrite is_nan_sf, sub_spec.
  destruct (is_finite_sf x Hx) as [[sx ->]|[sx [mx [ex ->]]]];
  destruct (is_finite_sf y Hy) as [[sy ->]|[sy [my [ey ->]]]];
    unfold SF64sub, SFsub; try (destruct sx, sy; reflexivity).
  destruct (binary_normalize _ _ _ _ _) eqn:E; try reflexivity.
  exfalso; exact (binary_normalize_not_nan _ _ _ E).
Qed.

Lemma mul_finite_not_nan x y :
  is_finite x = true -> is_finite y = true -> is_nan (x * y) = false.
Proof.
  intros Hx Hy. rewrite is_nan_sf, mul_spec.
  destruct (is_finite_sf x Hx) as [[sx ->]|[sx [mx [ex ->]]]];
  destruct (is_finite_sf y Hy) as [[sy ->]|[sy [my [ey ->]]]];
    unfold SF64mul, SFmul; try reflexivity.
  destruct (binary_round_aux _ _ _ _ _ _) eqn:E; try reflexivity.
  exfalso; refine (binary_round_aux_not_nan _ _ _ _ _ E); lia.
Qed.

Lemma div_core_nonneg m1 e1 m2 e2 :
  (0 <= m1)%Z -> (0 < m2)%Z ->
  (0 <= fst (fst (SFdiv_core_binary prec emax m1 e1 m2 e2)))%Z.
Proof.
  intros H1 H2. unfold SFdiv_core_binary.
  set (m' := match _ with Zpos _ => Z.shiftl m1 _ | Z0 => m1 | Zneg _ => 0%Z end).
  assert (Hm' : (0 <= m')%Z).
  { subst m'. destruct (_ - _ - _)%Z; try lia. apply Z.shiftl_nonneg; lia. }
  assert (Hq : (0 <= m' / m2)%Z) by (apply Z.div_pos; lia).
  unfold Z.div in Hq. destruct (Z.div_eucl m' m2) as [q r]. exact Hq.
Qed.

(** Dividing a finite float by a finite non-zero float never gives NaN. *)
Lemma div_finite_not_nan x y :
  is_finite x = true -> is_finite y = true -> (y =? 0) = false ->
  is_nan (x / y) = false.
Proof.
  intros Hx Hy Hz. rewrite eqb_zero_sf in Hz. rewrite is_nan_sf, div_spec.
  destruct (is_finite_sf y Hy) as [[sy Ey]|[sy [my [ey Ey]]]]; rewrite Ey in Hz;
    [discriminate|]. rewrite Ey.
  destruct (is_finite_sf x Hx) as [[sx ->]|[sx [mx [ex ->]]]];
    unfold SF64div, SFdiv; try reflexivity.
  pose proof (div_core_nonneg (Zpos mx) ex (Zpos my) ey ltac:(lia) ltac:(lia)) as H.
  destruct (SFdiv_core_binary _ _ _ _ _ _) as [[mz ez] lz]; simpl in H.
  destruct (binary_round_aux _ _ _ _ _ _) eqn:E; try reflexivity.
  exfalso; exact (binary_round_aux_not_nan _ _ _ _ H E).
Qed.

Lemma sf_add_comm x y : SF64add x y = SF64add y x.
Proof.
  unfold SF64add, SFadd.
  destruct x as [sx|sx| |sx mx ex], y as [sy|sy| |sy my ey];
    try destruct sx; try destruct sy; try reflexivity;
    rewrite Z.min_comm, Z.add_comm; reflexivity.
Qed.

Lemma sf_mul_comm x y : SF64mul x y = SF64mul y x.
Proof.
  unfold SF64mul, SFmul.
  destruct x as [sx|sx| |sx mx ex], y as [sy|sy| |sy my ey];
    try destruct sx; try destruct sy; try reflexivity;
    rewrite Pos.mul_comm, Z.add_comm; reflexivity.
Qed.

(** binary64 addition and multiplication commute, NaN and signed zeros included. *)
Lemma add_comm x y : x + y = y + x.
Proof. apply Prim2SF_inj. rewrite !add_spec. apply sf_add_comm. Qed.

Lemma mul_comm x y : x * y = y * x.
Proof. apply Prim2SF_inj. rewrite !mul_spec. apply sf_mul_comm. Qed.

End FloatFacts.

(** ** Python string helpers *)

Module PyStr.

(** [str(n)] for a non-negative Python [int]. *)
Fixpoint uint_to_string (u : Decimal.uint) : string :=
  match u with
  | Decimal.Nil => ""
  | Decimal.D0 u => String "0" (uint_to_string u)
  | Decimal.D1 u => String "1" (uint_to_string u)
  | Decimal.D2 u => String "2" (uint_to_string u)
  | Decimal.D3 u => String "3" (uint_to_string u)
  | Decimal.D4 u => String "4" (uint_to_string u)
  | Decimal.D5 u => String "5" (uint_to_string u)
  | Decimal.D6 u => String "6" (uint_to_string u)
  | Decimal.D7 u => String "7" (uint_to_string u)
  | Decimal.D8 u => String "8" (uint_to_string u)
  | Decimal.D9 u => String "9" (uint_to_string u)
  end.

Definition str_int (n : nat) : string := uint_to_string (Nat.to_uint n).

Definition dquote : ascii := ascii_of_nat 34.
Definition squote : ascii := "'"%char.
Definition backslash : ascii := ascii_of_nat 92.

Definition hex_digit (n : nat) : ascii :=
  if Nat.ltb n 10 then ascii_of_nat (48 + n) else ascii_of_nat (87 + n).

Fixpoint contains (c : ascii) (s : string) : bool :=
  match s with
  | EmptyString => false
  | String d s' => Ascii.eqb c d || contains c s'
  end.

(** Escaping of one character by [repr] of a [str] quoted with [q].
    Characters are the bytes of an ASCII string. *)
Definition repr_char (q c : ascii) : string :=
  let n := nat_of_ascii c in
  if Ascii.eqb c backslash then String backslash (String backslash EmptyString)
  else if Ascii.eqb c q then String backslash (String q EmptyString)
  else if Nat.eqb n 9 then String backslash "t"
  else if Nat.eqb n 10 then String backslash "n"
  else if Nat.eqb n 13 then String backslash "r"
  else if Nat.ltb n 32 || Nat.eqb n 127 then
    String backslash (String "x" (String (hex_digit (n / 16)) (String (hex_digit (n mod 16)) EmptyString)))
  else String c EmptyString.

Fixpoint repr_body (q : ascii) (s : string) : string :=
  match s with
  | EmptyString => EmptyString
  | String c s' => repr_char q c ++ repr_body q s'
  end.

(** [repr(s)] of a Python [str]: single quotes unless [s] holds a single
    quote and no double quote. *)
Definition repr (s : string) : string :=
  let q := if contains squote s && negb (contains dquote s) then dquote else squote in
  String q (repr_body q s ++ String q EmptyString).

End PyStr.

(** ** The enums of [mcpncp_responses.py], [mcpnp_operator.py], [mcpnp_constants.py] *)

Module McpNpResponses.
Definition RESULT := "result".
Definition STATUS := "status".
Definition OK := "ok".
Definition ERROR := "error".
Definition MESSAGE := "message".
Definition NAN := "nan".
End McpNpResponses.

Inductive McpNpOperator := ADD | SUBTRACT | DIVIDE | MULTIPLY.

Definition McpNpOperator_value (o : McpNpOperator) : string :=
  match o with
  | ADD => "add" | SUBTRACT => "subtract" | DIVIDE => "divide" | MULTIPLY => "multiply"
  end.

(** [McpNpOperator(v)]: the member whose value is [v]; [None] stands for the
    [ValueError] the Enum call raises otherwise. *)
Definition McpNpOperator_of_value (v : string) : option McpNpOperator :=
  find (fun o => String.eqb (McpNpOperator_value o) v) [ADD; SUBTRACT; DIVIDE; MULTIPLY].

(** Message of that [ValueError]: [f"{value!r} is not a valid {cls.__qualname__}"]. *)
Definition McpNpOperator_error (v : string) : string :=
  PyStr.repr v ++ " is not a valid McpNpOperator".

Inductive McpNpConstant :=
  PI | E | SPEED_OF_LIGHT | PLANCK | ELEMENTARY_CHARGE
| GRAVITATIONAL_CONSTANT | ELECTRON_MASS | PROTON_MASS.

Definition McpNpConstant_value (c : McpNpConstant) : string :=
  match c with
  | PI => "PI"
  | E => "E"
  | SPEED_OF_LIGHT => "speed_of_light"
  | PLANCK => "planck"
  | ELEMENTARY_CHARGE => "elementary_charge"
  | GRAVITATIONAL_CONSTANT => "gravitational_constant"
  | ELECTRON_MASS => "electron_mass"
  | PROTON_MASS => "proton_mass"
  end.

(** ** The response envelope *)

(** An element of [result_list] in [mcpnp_elementwise_op]: [float(x)], or the
    string [str(McpNpResponses.NAN)]. *)
Inductive elem := ElNum (f : float) | ElNan.

(** The [result_value] string handed to [_json_response], by how the handler
    built it: a literal string ([""] or ["nan"]), [str(float)],
    [str(result_list)], [json.dumps({"name": .., "value": ..}, indent=2)],
    or the JSON text of the two introspection tools. *)
Inductive payload :=
| PText (s : string)
| PFloat (f : float)
| PList (l : list elem)
| PConstant (name : string) (value : float)
| PExplanation
| POperators.

(** The dict [_json_response] returns, with its three keys. *)
Record envelope := { result : payload; status : string; message : string }.

Definition _json_response (result_value : payload) (st : bool) (msg : string) : envelope :=
  let status_value := if st then McpNpResponses.OK else McpNpResponses.ERROR in
  {| result := result_value; status := status_value; message := msg |}.

(** ** numpy reductions used by the handlers *)

Module Np.
Local Open Scope float_scope.

(** Elementwise [np.add], [np.subtract], [np.multiply] of two arrays of the same shape. *)
Fixpoint zip_with (f : float -> float -> float) (xs ys : list float) : list float :=
  match xs, ys with
  | x :: xs', y :: ys' => f x y :: zip_with f xs' ys'
  | _, _ => []
  end.

(** The left-to-right loop [res += a[i]] of numpy's summation kernel. *)
Definition add_seq (res : float) (a : list float) : float :=
  fold_left (fun acc x => acc + x) a res.

(** The unrolled loop of [pairwise_sum] for [8 <= n <= PW_BLOCKSIZE]: the eight
    accumulators [r[0..7]] each add the element at their offset of every
    further block of eight. *)
Fixpoint accumulate8 (fuel : nat) (r a : list float) : list float :=
  match fuel with
  | O => r
  | S f =>
      match a with
      | [] => r
      | _ => accumulate8 f (zip_with add r (firstn 8 a)) (skipn 8 a)
      end
  end.

(** [res = ((r[0] + r[1]) + (r[2] + r[3])) + ((r[4] + r[5]) + (r[6] + r[7]))]. *)
Definition combine8 (r : list float) : float :=
  let r' j := nth j r 0 in
  ((r' 0%nat + r' 1%nat) + (r' 2%nat + r' 3%nat)) +
  ((r' 4%nat + r' 5%nat) + (r' 6%nat + r' 7%nat)).

Definition PW_BLOCKSIZE : nat := 128.

(** numpy's [DOUBLE_pairwise_sum] (numpy/_core/src/umath/loops_utils.h.src):
    below eight elements a plain loop from [0.]; up to [PW_BLOCKSIZE] elements
    eight accumulators over the largest multiple of eight, combined as a tree,
    then the remaining elements one by one; above that the two halves split at
    [n2 = n / 2 - (n / 2) % 8], each summed the same way. The recursion
    shortens the list at each step, so [fuel = n] suffices. *)
Fixpoint pairwise_sum (fuel : nat) (a : list float) : float :=
  let n := List.length a in
  if Nat.ltb n 8 then add_seq 0 a
  else if Nat.leb n PW_BLOCKSIZE then
    let m := (n - n mod 8)%nat in
    let r := accumulate8 m (firstn 8 a) (skipn 8 (firstn m a)) in
    add_seq (combine8 r) (skipn m a)
  else
    match fuel with
    | O => add_seq 0 a
    | S f =>
        let n2 := (n / 2 - (n / 2) mod 8)%nat in
        pairwise_sum f (firstn n2 a) + pairwise_sum f (skipn n2 a)
    end.

(** [np.sum] of a contiguous [float64] array is [np.add.reduce]: the output
    starts at the identity [0.0] of [add], and the reduction loop [DOUBLE_add]
    adds [DOUBLE_pairwise_sum] of the whole array to it. An empty array gives
    [0.0]. *)
Definition sum (l : list float) : float := 0 + pairwise_sum (List.length l) l.

(** [float(n)] for a list length [n] (exact below [2^53]). *)
Fixpoint float_of_nat (n : nat) : float :=
  match n with O => 0 | S n' => float_of_nat n' + 1 end.

(** [np.std(arr)] with its default [ddof=0], as numpy's [_var] computes it:
    the mean [sum(arr) / n], the squared deviations [x * x] of [x = arr - mean],
    their sum divided by [max(n - ddof, 0) = n], and the square root. An empty
    array gives [0.0 / 0.0], i.e. NaN, with a [RuntimeWarning], not an exception. *)
Definition std (l : list float) : float :=
  let n := float_of_nat (List.length l) in
  let arrmean := sum l / n in
  let x := map (fun v => (v - arrmean) * (v - arrmean)) l in
  sqrt (sum x / n).


End Np.

(** ** The numbers a binary64 value denotes *)

(** The rational number a finite float denotes, [(-1)^s * m * 2^e], in lowest
    terms; [None] for the infinities and NaN. *)
Definition float_value (x : float) : option Q :=
  match Prim2SF x with
  | S754_zero _ => Some 0%Q
  | S754_finite s m e =>
      let scale := if (0 <=? e)%Z then inject_Z (2 ^ e) else Qinv (inject_Z (2 ^ (- e))) in
      let v := (inject_Z (Zpos m) * scale)%Q in
      Some (Qred (if s then Qopp v else v))
  | _ => None
  end.

(** The arithmetic (exact) sum of the values of a sequence of finite floats. *)
Definition exact_sum (l : list float) : option Q :=
  fold_right
    (fun x acc =>
       match float_value x, acc with
       | Some v, Some t => Some (Qred (v + t))
       | _, _ => None
       end)
    (Some 0%Q) l.

(** ** The tool handlers of [McpNp._register_tools] *)

Section Tools.
Local Open Scope float_scope.

(** [mcpnp_stddev]. The [try] block cannot raise on a [list[float]]: building
    the array and [np.std] only warn on an empty list, so the [except] branch
    (result [str(McpNpResponses.NAN)], status error) is never taken. *)
Definition mcpnp_stddev (numbers : list float) : envelope :=
  let result := Np.std numbers in
  _json_response (PFloat result) true "McpNp stddev successful".

(** [np.pi], [np.e] and the scipy.constants values (CODATA 2018). *)
Definition constant_number (c : McpNpConstant) : float :=
  match c with
  | PI => 3.141592653589793
  | E => 2.718281828459045
  | SPEED_OF_LIGHT => 299792458.0
  | PLANCK => 6.62607015e-34
  | ELEMENTARY_CHARGE => 1.602176634e-19
  | GRAVITATIONAL_CONSTANT => 6.6743e-11
  | ELECTRON_MASS => 9.1093837015e-31
  | PROTON_MASS => 1.67262192369e-27
  end.

(** [McpNp.MCPNP_CONSTANT_VALUES], keyed by [McpNpConstant.X.value]. *)
Definition MCPNP_CONSTANT_VALUES : list (string * float) :=
  map (fun c => (McpNpConstant_value c, constant_number c))
    [PI; E; SPEED_OF_LIGHT; PLANCK; ELEMENTARY_CHARGE;
     GRAVITATIONAL_CONSTANT; ELECTRON_MASS; PROTON_MASS].

(** Dict lookup by exact key. *)
Definition dict_get (d : list (string * float)) (k : string) : option float :=
  match find (fun kv => String.eqb (fst kv) k) d with
  | Some kv => Some (snd kv)
  | None => None
  end.

(** [mcpnp_constant]. *)
Definition mcpnp_constant (name : string) : envelope :=
  match dict_get MCPNP_CONSTANT_VALUES name with
  | None =>
      _json_response (PText "") false ("Constant '" ++ name ++ "' is not supported.")
  | Some value =>
      _json_response (PConstant name value) true ("Constant '" ++ name ++ "' returned.")
  end.

(** [mcpnp_results_explanation] and [mcpnp_list_operators]. *)
Definition mcpnp_results_explanation : envelope :=
  _json_response PExplanation true
    "Explanation of MCPNP result JSON structure and response strings.".

Definition mcpnp_list_operators : envelope :=
  _json_response POperators true "Supported operators listed.".

(** The [DIVIDE] loop of [mcpnp_elementwise_op] over [enumerate(zip(arr_a, arr_b))],
    threading [result], [error_detected] and [error_message]. Its inner
    [except Exception] branch is never taken: Python's float division raises
    only on a zero divisor, which the [b == 0] test has already caught. *)
Fixpoint divide_loop (idx : nat) (xs ys : list float)
    (result : list float) (error_detected : bool) (error_message : string)
    : list float * bool * string :=
  match xs, ys with
  | a :: xs', b :: ys' =>
      if b =? 0 then
        divide_loop (S idx) xs' ys' (result ++ [nan]) true
          ("Division by zero at index " ++ PyStr.str_int idx ++ ". ")
      else
        divide_loop (S idx) xs' ys' (result ++ [a / b]) error_detected error_message
  | _, _ => (result, error_detected, error_message)
  end.

(** The [try] block of [mcpnp_elementwise_op]: [inl msg] is an exception with
    [str(e) = msg]; [inr (result, error_detected, error_message)] is normal exit.
    The final [else: raise ValueError] is unreachable, the enum having four members. *)
Definition elementwise_try (list_a list_b : list float) (operator : string)
    : string + (list float * bool * string) :=
  if negb (Nat.eqb (List.length list_a) (List.length list_b)) then
    inl "Input lists must be of equal length."
  else
    match McpNpOperator_of_value operator with
    | None => inl (McpNpOperator_error operator)
    | Some ADD => inr (Np.zip_with add list_a list_b, false, "")
    | Some SUBTRACT => inr (Np.zip_with sub list_a list_b, false, "")
    | Some MULTIPLY => inr (Np.zip_with mul list_a list_b, false, "")
    | Some DIVIDE => inr (divide_loop 0 list_a list_b [] false "")
    end.

(** [result_list = [float(x) if not np.isnan(x) else str(McpNpResponses.NAN) for x in result]]. *)
Definition to_result_list (result : list float) : list elem :=
  map (fun x => if is_nan x then ElNan else ElNum x) result.

(** [x == str(McpNpResponses.NAN)]: only the sentinel string equals it. *)
Definition is_nan_sentinel (x : elem) : bool :=
  match x with ElNan => true | ElNum _ => false end.

(** The code after the [try] block of [mcpnp_elementwise_op] ("Check for NaN
    in result"): the sentinel list and the envelope built from it. *)
Definition elementwise_respond (result : list float) (error_detected : bool)
    (error_message : string) : envelope :=
  let result_list := to_result_list result in
  if error_detected || existsb is_nan_sentinel result_list then
    _json_response (PList result_list) false
      ("McpNp elementwise_op failed: " ++
         (if String.eqb error_message "" then "One or more results are NaN."
          else error_message))
  else
    _json_response (PList result_list) true "McpNp elementwise_op successful".

(** [mcpnp_elementwise_op]. *)
Definition mcpnp_elementwise_op (list_a list_b : list float) (operator : string) : envelope :=
  match elementwise_try list_a list_b operator with
  | inl e =>
      _json_response (PText "") false ("McpNp elementwise_op failed with error: " ++ e)
  | inr (result, error_detected, error_message) =>
      elementwise_respond result error_detected error_message
  end.

(** [mcpnp_sum]. As for [stddev], the [try] block cannot raise on a [list[float]]. *)
Definition mcpnp_sum (numbers : list float) : envelope :=
  let result := Np.sum numbers in
  _json_response (PFloat result) true "McpNp sum successful".

End Tools.

(** ** Dispatch: a call of one registered tool with arguments of its declared types *)

Inductive tool_call :=
| Call_stddev (numbers : list float)
| Call_constant (name : string)
| Call_results_explanation
| Call_elementwise_operators
| Call_elementwise (list_a list_b : list float) (operator : string)
| Call_sum (numbers : list float).

Definition invoke (c : tool_call) : envelope :=
  match c with
  | Call_stddev numbers => mcpnp_stddev numbers
  | Call_constant name => mcpnp_constant name
  | Call_results_explanation => mcpnp_results_explanation
  | Call_elementwise_operators => mcpnp_list_operators
  | Call_elementwise a b op => mcpnp_elementwise_op a b op
  | Call_sum numbers => mcpnp_sum numbers
  end.

(** ** Lemmas on the elementwise computation *)

Module ElementwiseFacts.
Import FloatFacts.
Local Open Scope float_scope.

Definition finite_all (l : list float) : Prop := Forall (fun x => is_finite x = true) l.

(** One step of the division loop on its own. *)
Definition divq (a b : float) : float := if b =? 0 then nan else a / b.

Definition zero_flag (xs ys : list float) : bool :=
  existsb (fun p => snd p =? 0) (combine xs ys).

Lemma divide_loop_result idx xs ys acc err msg :
  fst (fst (divide_loop idx xs ys acc err msg)) = (acc ++ Np.zip_with divq xs ys)%list.
Proof.
  revert idx ys acc err msg.
  induction xs as [|a xs IH]; intros idx [|b ys] acc err msg; simpl;
    try (rewrite app_nil_r; reflexivity).
  unfold divq; destruct (b =? 0); rewrite IH, <- app_assoc; reflexivity.
Qed.

Lemma divide_loop_flag idx xs ys acc err msg :
  snd (fst (divide_loop idx xs ys acc err msg)) = err || zero_flag xs ys.
Proof.
  revert idx ys acc err msg; unfold zero_flag.
  induction xs as [|a xs IH]; intros idx [|b ys] acc err msg; simpl;
    try (rewrite orb_false_r; reflexivity).
  destruct (b =? 0); rewrite IH; simpl; [rewrite orb_true_r|]; reflexivity.
Qed.

Lemma divide_loop_msg_keep idx xs ys acc err msg :
  (forall j b, nth_error ys j = Some b -> (b =? 0) = false) ->
  snd (divide_loop idx xs ys acc err msg) = msg.
Proof.
  revert idx ys acc err msg.
  induction xs as [|a xs IH]; intros idx [|b ys] acc err msg Hz; simpl; try reflexivity.
  rewrite (Hz 0%nat b eq_refl).
  apply IH. intros j b' Hj. exact (Hz (S j) b' Hj).
Qed.

Lemma divide_loop_msg_last idx xs ys acc err msg k b :
  List.length xs = List.length ys ->
  nth_error ys k = Some b -> (b =? 0) = true ->
  (forall j b', (k < j)%nat -> nth_error ys j = Some b' -> (b' =? 0) = false) ->
  snd (divide_loop idx xs ys acc err msg) =
    "Division by zero at index " ++ PyStr.str_int (idx + k) ++ ". ".
Proof.
  revert idx ys acc err msg k.
  induction xs as [|a xs IH]; intros idx [|b0 ys] acc err msg k Hlen Hk Hb Hlast;
    simpl in *; try discriminate; try (destruct k; discriminate).
  destruct k as [|k].
  - injection Hk as ->. rewrite Hb, Nat.add_0_r.
    apply divide_loop_msg_keep. intros j b' Hj.
    apply (Hlast (S j) b'); [lia | exact Hj].
  - replace (idx + S k)%nat with (S idx + k)%nat by lia.
    assert (Hlast' : forall j b', (k < j)%nat -> nth_error ys j = Some b' -> (b' =? 0) = false)
      by (intros j b' Hj Hnth; apply (Hlast (S j) b'); [lia | exact Hnth]).
    destruct (b0 =? 0); apply IH; auto.
Qed.

Lemma zero_flag_iff xs ys :
  List.length xs = List.length ys ->
  zero_flag xs ys = true <-> exists i b, nth_error ys i = Some b /\ (b =? 0) = true.
Proof.
  unfold zero_flag. revert ys.
  induction xs as [|a xs IH]; intros [|b ys] Hlen; simpl in *; try discriminate.
  - split; [discriminate|]. intros [[|i] [b [H _]]]; discriminate.
  - rewrite orb_true_iff, IH by lia. split.
    + intros [H|[i [b' H]]]; [exists 0%nat, b | exists (S i), b']; auto.
    + intros [[|i] [b' [H1 H2]]]; simpl in H1;
        [injection H1 as ->; left | right; exists i, b']; auto.
Qed.

Lemma nth_error_zip_with f xs ys i a b :
  nth_error xs i = Some a -> nth_error ys i = Some b ->
  nth_error (Np.zip_with f xs ys) i = Some (f a b).
Proof.
  revert ys i. induction xs as [|x xs IH]; intros [|y ys] [|i] Ha Hb;
    simpl in *; try discriminate; auto.
  injection Ha as ->; injection Hb as ->; reflexivity.
Qed.

Lemma length_zip_with f xs ys :
  List.length xs = List.length ys -> List.length (Np.zip_with f xs ys) = List.length xs.
Proof.
  revert ys. induction xs as [|x xs IH]; intros [|y ys] H; simpl in *; try discriminate; auto.
Qed.

Lemma to_result_list_no_nan f xs ys :
  (forall a b, is_finite a = true -> is_finite b = true -> is_nan (f a b) = false) ->
  finite_all xs -> finite_all ys ->
  to_result_list (Np.zip_with f xs ys) = map ElNum (Np.zip_with f xs ys).
Proof.
  intros Hf Hx. revert ys. induction Hx as [|x xs Hx0 Hx IH]; intros [|y ys] Hy;
    simpl; try reflexivity.
  inversion Hy; subst. rewrite (Hf x y Hx0 ltac:(assumption)).
  f_equal. apply IH; assumption.
Qed.

Lemma existsb_ElNum l : existsb is_nan_sentinel (map ElNum l) = false.
Proof. induction l; simpl; auto. Qed.

Lemma existsb_nan_sentinel_In l : existsb is_nan_sentinel l = true <-> In ElNan l.
Proof.
  rewrite existsb_exists. split.
  - intros [x [Hin Hx]]. destruct x; [discriminate | exact Hin].
  - intros H. exists ElNan. auto.
Qed.

Lemma elementwise_try_equal A B operator :
  List.length A = List.length B ->
  elementwise_try A B operator =
    match McpNpOperator_of_value operator with
    | None => inl (McpNpOperator_error operator)
    | Some ADD => inr (Np.zip_with add A B, false, "")
    | Some SUBTRACT => inr (Np.zip_with sub A B, false, "")
    | Some MULTIPLY => inr (Np.zip_with mul A B, false, "")
    | Some DIVIDE => inr (divide_loop 0 A B [] false "")
    end.
Proof. intros H. unfold elementwise_try. rewrite H, Nat.eqb_refl. reflexivity. Qed.

Lemma respond_result r err msg :
  (elementwise_respond r err msg).(result) = PList (to_result_list r).
Proof.
  unfold elementwise_respond.
  destruct (err || existsb is_nan_sentinel (to_result_list r)); reflexivity.
Qed.

Lemma respond_status r err msg :
  (elementwise_respond r err msg).(status) =
    if err || existsb is_nan_sentinel (to_result_list r) then "error" else "ok".
Proof.
  unfold elementwise_respond.
  destruct (err || existsb is_nan_sentinel (to_result_list r)); reflexivity.
Qed.

Lemma operator_of_value_unsupported operator :
  ~ In operator ["add"; "subtract"; "multiply"; "divide"] ->
  McpNpOperator_of_value operator = None.
Proof.
  intros H. unfold McpNpOperator_of_value. cbn [find McpNpOperator_value].
  destruct (String.eqb_spec "add" operator) as [<-|_]; [exfalso; apply H; simpl; auto|].
  destruct (String.eqb_spec "subtract" operator) as [<-|_]; [exfalso; apply H; simpl; auto|].
  destruct (String.eqb_spec "divide" operator) as [<-|_]; [exfalso; apply H; simpl; auto|].
  destruct (String.eqb_spec "multiply" operator) as [<-|_]; [exfalso; apply H; simpl; auto|].
  reflexivity.
Qed.

Lemma zip_with_comm f xs ys :
  (forall a b, f a b = f b a) -> Np.zip_with f xs ys = Np.zip_with f ys xs.
Proof.
  intros Hf. revert ys. induction xs as [|x xs IH]; intros [|y ys]; simpl; auto.
  rewrite Hf, IH. reflexivity.
Qed.

Lemma nth_error_same_length {X Y : Type} (xs : list X) (ys : list Y) i y :
  List.length xs = List.length ys -> nth_error ys i = Some y -> exists x, nth_error xs i = Some x.
Proof.
  intros Hlen Hy. destruct (nth_error xs i) eqn:E; [eauto|].
  apply nth_error_None in E.
  assert (i < List.length ys)%nat by (apply nth_error_Some; congruence). lia.
Qed.

Lemma zip_with_divq_nonzero xs ys :
  Forall (fun b => (b =? 0) = false) ys -> Np.zip_with divq xs ys = Np.zip_with div xs ys.
Proof.
  intros Hy. revert xs. induction Hy as [|y ys Hy0 Hy IH]; intros [|x xs]; simpl; auto.
  unfold divq at 1. rewrite Hy0, IH. reflexivity.
Qed.

Lemma to_result_list_div_no_nan xs ys :
  finite_all xs -> finite_all ys -> Forall (fun b => (b =? 0) = false) ys ->
  to_result_list (Np.zip_with div xs ys) = map ElNum (Np.zip_with div xs ys).
Proof.
  intros Hx. revert ys. induction Hx as [|x xs Hx0 Hx IH]; intros [|y ys] Hy Hz; simpl; auto.
  inversion Hy; inversion Hz; subst.
  rewrite (div_finite_not_nan x y); auto. f_equal. apply IH; assumption.
Qed.

Lemma dict_get_absent {X : Type} (keys : X -> string) (vals : X -> float) (l : list X) name :
  (forall c, keys c <> name) ->
  dict_get (map (fun c => (keys c, vals c)) l) name = None.
Proof.
  intros H. unfold dict_get. induction l as [|c l IH]; simpl; auto.
  destruct (String.eqb_spec (keys c) name) as [E|_]; [exfalso; exact (H c E)|].
  destruct (find _ _); [discriminate IH | reflexivity].
Qed.

End ElementwiseFacts.

(** ** The tool contracts *)

Import FloatFacts ElementwiseFacts.

(** C1: for [operator = "divide"] on two equal-length sequences of finite floats,
    every position whose divisor is zero ([b == 0]) holds the NaN sentinel and
    every other position holds the quotient [a / b]; the result is the full
    output list, one entry per input position, and any zero divisor makes the
    status [error]. *)
Theorem elementwise_divide_partial_result (A B : list float) :
  List.length A = List.length B -> finite_all A -> finite_all B ->
  exists out,
    (mcpnp_elementwise_op A B "divide").(result) = PList out /\
    List.length out = List.length A /\
    (forall i a b, nth_error A i = Some a -> nth_error B i = Some b ->
       ((b =? 0)%float = true -> nth_error out i = Some ElNan) /\
       ((b =? 0)%float = false -> nth_error out i = Some (ElNum (a / b)%float))) /\
    ((exists i b, nth_error B i = Some b /\ (b =? 0)%float = true) ->
       (mcpnp_elementwise_op A B "divide").(status) = "error").
Proof.
  intros Hlen HA HB.
  unfold mcpnp_elementwise_op. rewrite elementwise_try_equal by exact Hlen. simpl.
  pose proof (divide_loop_result 0 A B [] false "") as Hres.
  pose proof (divide_loop_flag 0 A B [] false "") as Hflag.
  destruct (divide_loop 0 A B [] false "") as [[result err] msg]; simpl in Hres, Hflag.
  subst result err. simpl.
  set (out := to_result_list (Np.zip_with divq A B)).
  assert (Hout : forall i a b, nth_error A i = Some a -> nth_error B i = Some b ->
            nth_error out i = Some (if is_nan (divq a b) then ElNan else ElNum (divq a b))).
  { intros i a b Ha Hb. unfold out, to_result_list.
    rewrite nth_error_map, (nth_error_zip_with divq A B i a b Ha Hb). reflexivity. }
  exists out. split; [|split; [|split]].
  - unfold elementwise_respond; fold out.
    destruct (zero_flag A B || existsb is_nan_sentinel out); reflexivity.
  - unfold out, to_result_list. rewrite length_map. apply length_zip_with, Hlen.
  - intros i a b Ha Hb. rewrite (Hout i a b Ha Hb). unfold divq. split; intros Hz; rewrite Hz.
    + reflexivity.
    + rewrite (div_finite_not_nan a b); [reflexivity | | | exact Hz].
      * exact (proj1 (Forall_forall _ _) HA a (nth_error_In _ _ Ha)).
      * exact (proj1 (Forall_forall _ _) HB b (nth_error_In _ _ Hb)).
  - intros Hz. apply (zero_flag_iff A B Hlen) in Hz.
    unfold elementwise_respond. rewrite Hz. reflexivity.
Qed.

(** C5: for equal-length inputs and a supported operator, the output list is
    built first, the error flag is set exactly when the operator is divide and
    some divisor is zero, and the status is [ok] exactly when no output element
    is the NaN sentinel and the flag is clear ([error] otherwise), whatever the
    operator. *)
Theorem elementwise_success_flag (A B : list float) (operator : string) (o : McpNpOperator) :
  List.length A = List.length B -> McpNpOperator_of_value operator = Some o ->
  exists out error_detected,
    (mcpnp_elementwise_op A B operator).(result) = PList out /\
    (error_detected = true <->
       o = DIVIDE /\ exists i b, nth_error B i = Some b /\ (b =? 0)%float = true) /\
    ((mcpnp_elementwise_op A B operator).(status) = "ok" <->
       ~ In ElNan out /\ error_detected = false) /\
    ((mcpnp_elementwise_op A B operator).(status) = "error" <->
       In ElNan out \/ error_detected = true).
Proof.
  intros Hlen Hop.
  unfold mcpnp_elementwise_op. rewrite elementwise_try_equal, Hop by exact Hlen.
  assert (Hgen : forall r err msg,
    (err = true <-> o = DIVIDE /\ exists i b, nth_error B i = Some b /\ (b =? 0)%float = true) ->
    exists out error_detected,
      (elementwise_respond r err msg).(result) = PList out /\
      (error_detected = true <->
         o = DIVIDE /\ exists i b, nth_error B i = Some b /\ (b =? 0)%float = true) /\
      ((elementwise_respond r err msg).(status) = "ok" <-> ~ In ElNan out /\ error_detected = false) /\
      ((elementwise_respond r err msg).(status) = "error" <-> In ElNan out \/ error_detected = true)).
  { intros r err msg Herr. exists (to_result_list r), err.
    rewrite respond_result, respond_status, <- existsb_nan_sentinel_In.
    split; [reflexivity | split; [exact Herr |]].
    destruct err, (existsb is_nan_sentinel (to_result_list r)); simpl;
      intuition discriminate. }
  destruct o.
  1,2,4: apply Hgen; split; [discriminate | intros [H _]; discriminate].
  destruct (divide_loop 0 A B [] false "") as [[r err] msg] eqn:E.
  apply Hgen.
  pose proof (divide_loop_flag 0 A B [] false "") as Hflag. rewrite E in Hflag. simpl in Hflag.
  subst err. rewrite zero_flag_iff by exact Hlen.
  split; [intros H; split; auto | intros [_ H]; exact H].
Qed.

(** C6: for [add], [subtract] and [multiply] on two equal-length sequences of
    finite floats, the status is [ok] and position [i] of the result is
    [op(A[i], B[i])]. *)
Theorem elementwise_arith_ok (A B : list float) (operator : string)
    (f : float -> float -> float) :
  In (operator, f) [("add", add); ("subtract", sub); ("multiply", mul)] ->
  List.length A = List.length B -> finite_all A -> finite_all B ->
  (mcpnp_elementwise_op A B operator).(status) = "ok" /\
  exists out,
    (mcpnp_elementwise_op A B operator).(result) = PList out /\
    List.length out = List.length A /\
    (forall i a b, nth_error A i = Some a -> nth_error B i = Some b ->
       nth_error out i = Some (ElNum (f a b))).
Proof.
  intros Hin Hlen HA HB.
  assert (Hgen : forall g, (forall a b, is_finite a = true -> is_finite b = true ->
                             is_nan (g a b) = false) ->
    (elementwise_respond (Np.zip_with g A B) false "").(status) = "ok" /\
    exists out,
      (elementwise_respond (Np.zip_with g A B) false "").(result) = PList out /\
      List.length out = List.length A /\
      (forall i a b, nth_error A i = Some a -> nth_error B i = Some b ->
         nth_error out i = Some (ElNum (g a b)))).
  { intros g Hg. rewrite respond_status, respond_result, (to_result_list_no_nan g A B Hg HA HB).
    rewrite existsb_ElNum. split; [reflexivity|].
    exists (map ElNum (Np.zip_with g A B)). split; [reflexivity | split].
    - rewrite length_map. apply length_zip_with, Hlen.
    - intros i a b Ha Hb. rewrite nth_error_map, (nth_error_zip_with g A B i a b Ha Hb).
      reflexivity. }
  unfold mcpnp_elementwise_op. rewrite elementwise_try_equal by exact Hlen.
  destruct Hin as [Hop|[Hop|[Hop|[]]]]; injection Hop as <- <-; simpl.
  - apply Hgen, add_finite_not_nan.
  - apply Hgen, sub_finite_not_nan.
  - apply Hgen, mul_finite_not_nan.
Qed.

(** C10: two empty sequences with any of the four supported operators give
    status [ok] and the empty result list. *)
Theorem elementwise_empty_ok (operator : string) :
  In operator ["add"; "subtract"; "multiply"; "divide"] ->
  mcpnp_elementwise_op [] [] operator =
    {| result := PList []; status := "ok"; message := "McpNp elementwise_op successful" |}.
Proof.
  intros [<-|[<-|[<-|[<-|[]]]]]; reflexivity.
Qed.

(** C8: unequal lengths (whatever the elements), or an operator name outside
    the four supported ones, give the generic error envelope: empty result,
    status [error], and a message naming the failed precondition, the length
    check coming first. *)
Theorem elementwise_precondition_error (A B : list float) (operator : string) :
  List.length A <> List.length B \/ ~ In operator ["add"; "subtract"; "multiply"; "divide"] ->
  mcpnp_elementwise_op A B operator =
    {| result := PText ""; status := "error";
       message := "McpNp elementwise_op failed with error: " ++
         (if Nat.eqb (List.length A) (List.length B)
          then PyStr.repr operator ++ " is not a valid McpNpOperator"
          else "Input lists must be of equal length.") |}.
Proof.
  intros H. unfold mcpnp_elementwise_op, elementwise_try.
  destruct (Nat.eqb (List.length A) (List.length B)) eqn:E; [|reflexivity].
  apply Nat.eqb_eq in E. destruct H as [H|H]; [contradiction|].
  rewrite (operator_of_value_unsupported operator H). reflexivity.
Qed.

(** C9: every tool call, on every argument of its declared types, returns the
    one envelope [_json_response] builds from a result value, a success flag
    and a message, and its status is [ok] when the flag is true and [error]
    when it is false. *)
Theorem invoke_returns_envelope (c : tool_call) :
  exists result_value success msg,
    invoke c = _json_response result_value success msg /\
    ((invoke c).(status) = McpNpResponses.OK /\ success = true \/
     (invoke c).(status) = McpNpResponses.ERROR /\ success = false).
Proof.
  assert (Hj : forall r b m, exists result_value success msg,
    _json_response r b m = _json_response result_value success msg /\
    ((_json_response r b m).(status) = McpNpResponses.OK /\ success = true \/
     (_json_response r b m).(status) = McpNpResponses.ERROR /\ success = false)).
  { intros r b m. exists r, b, m. split; [reflexivity|]. destruct b; simpl; auto. }
  destruct c as [numbers|name| | |list_a list_b operator|numbers]; simpl.
  - apply Hj.
  - unfold mcpnp_constant. destruct (dict_get _ _); apply Hj.
  - apply Hj.
  - apply Hj.
  - unfold mcpnp_elementwise_op.
    destruct (elementwise_try list_a list_b operator) as [e|[[r d] m]]; [apply Hj|].
    unfold elementwise_respond. destruct (d || _); apply Hj.
  - apply Hj.
Qed.

(** C7 (counterexample): the sum tool does not return the arithmetic sum:
    the three integers [1e16], [1] and [-1e16] add up to [1], and the tool
    answers [0.0], because [1e16 + 1] rounds back to [1e16] in binary64. *)
Lemma sum_not_arithmetic :
  exact_sum [1e16; 1; -1e16]%float = Some 1%Q /\
  (mcpnp_sum [1e16; 1; -1e16]%float).(result) = PFloat 0%float /\
  float_value 0%float = Some 0%Q.
Proof. split; [|split]; vm_compute; reflexivity. Qed.

(** C7 (amended): for every sequence [S] of floats the sum tool returns status
    [ok] with numpy's floating-point sum [np.sum(S)] (each addition rounded to
    binary64, grouped in numpy's pairwise blocks), which can differ from the
    arithmetic sum: [[1e16, 1, -1e16]] gives [0.0]. The empty sequence gives
    exactly [+0.0] with status [ok]. *)
Theorem sum_float_result (S : list float) :
  mcpnp_sum S =
    {| result := PFloat (Np.sum S); status := "ok"; message := "McpNp sum successful" |} /\
  mcpnp_sum [] =
    {| result := PFloat 0%float; status := "ok"; message := "McpNp sum successful" |} /\
  mcpnp_sum [1e16; 1; -1e16]%float =
    {| result := PFloat 0%float; status := "ok"; message := "McpNp sum successful" |}.
Proof.
  split; [reflexivity |].
  split; vm_compute; reflexivity.
Qed.

(** C2 (code bug): the stddev tool has no guard for short inputs; a single
    element gives [0.0] with status [ok], and the empty sequence gives a NaN
    float with status [ok], where the claim wants the NaN sentinel with
    status [error]. *)
Theorem stddev_short_inputs_ok :
  mcpnp_stddev [42%float] =
    {| result := PFloat 0%float; status := "ok"; message := "McpNp stddev successful" |} /\
  (mcpnp_stddev []).(status) = "ok" /\
  exists f, (mcpnp_stddev []).(result) = PFloat f /\ is_nan f = true.
Proof.
  split; [vm_compute; reflexivity | split; [reflexivity |]].
  exists (Np.std []). split; [reflexivity | vm_compute; reflexivity].
Qed.

(** C3 (code bug): the constant table is keyed by the enum values, which are
    lower case for six of the eight names, so [constant("SPEED_OF_LIGHT")],
    a name the tool description lists as supported, is rejected, while
    [constant("speed_of_light")] is answered. *)
Theorem constant_upper_case_rejected :
  mcpnp_constant "SPEED_OF_LIGHT" =
    {| result := PText ""; status := "error";
       message := "Constant 'SPEED_OF_LIGHT' is not supported." |} /\
  mcpnp_constant "speed_of_light" =
    {| result := PConstant "speed_of_light" 299792458.0%float; status := "ok";
       message := "Constant 'speed_of_light' returned." |}.
Proof. split; vm_compute; reflexivity. Qed.

(** C4 (counterexample): dividing [[1, 2]] by [[0, 0]] gives a message naming
    index 1, not the first zero-division index 0. *)
Lemma elementwise_divide_message_not_first :
  (mcpnp_elementwise_op [1; 2]%float [0; 0]%float "divide").(message) =
    "McpNp elementwise_op failed: Division by zero at index 1. " /\
  (mcpnp_elementwise_op [1; 2]%float [0; 0]%float "divide").(message) <>
    "McpNp elementwise_op failed: Division by zero at index 0. ".
Proof. split; vm_compute; [reflexivity | discriminate]. Qed.

(** C4 (amended): for divide on equal-length sequences, when some divisor is
    zero, the status is [error] and the message names the LAST index [k] whose
    divisor is zero: each zero divisor overwrites the recorded message. *)
Theorem elementwise_divide_message_last_zero (A B : list float) (k : nat) (b : float) :
  List.length A = List.length B ->
  nth_error B k = Some b -> (b =? 0)%float = true ->
  (forall j b', (k < j)%nat -> nth_error B j = Some b' -> (b' =? 0)%float = false) ->
  (mcpnp_elementwise_op A B "divide").(status) = "error" /\
  (mcpnp_elementwise_op A B "divide").(message) =
    "McpNp elementwise_op failed: Division by zero at index " ++ PyStr.str_int k ++ ". ".
Proof.
  intros Hlen Hk Hb Hlast.
  unfold mcpnp_elementwise_op. rewrite elementwise_try_equal by exact Hlen. simpl.
  pose proof (divide_loop_flag 0 A B [] false "") as Hflag.
  pose proof (divide_loop_msg_last 0 A B [] false "" k b Hlen Hk Hb Hlast) as Hmsg.
  destruct (divide_loop 0 A B [] false "") as [[r err] msg]; simpl in Hflag, Hmsg.
  subst err msg.
  assert (Hz : zero_flag A B = true) by (apply zero_flag_iff; eauto).
  unfold elementwise_respond. rewrite Hz. simpl. split; reflexivity.
Qed.

(** ** Witnesses: the contracts applied at concrete inputs *)

Lemma elementwise_divide_partial_result_witness :
  List.length [1; 2]%float = List.length [0; 4]%float /\
  finite_all [1; 2]%float /\ finite_all [0; 4]%float /\
  exists out,
    (mcpnp_elementwise_op [1; 2]%float [0; 4]%float "divide").(result) = PList out /\
    List.length out = List.length [1; 2]%float /\
    (forall i a b, nth_error [1; 2]%float i = Some a -> nth_error [0; 4]%float i = Some b ->
       ((b =? 0)%float = true -> nth_error out i = Some ElNan) /\
       ((b =? 0)%float = false -> nth_error out i = Some (ElNum (a / b)%float))) /\
    ((exists i b, nth_error [0; 4]%float i = Some b /\ (b =? 0)%float = true) ->
       (mcpnp_elementwise_op [1; 2]%float [0; 4]%float "divide").(status) = "error").
Proof.
  split; [reflexivity | split; [repeat constructor | split; [repeat constructor |]]].
  apply elementwise_divide_partial_result; [reflexivity | repeat constructor ..].
Defined.

Lemma elementwise_success_flag_witness :
  List.length [1; 2]%float = List.length [0; 4]%float /\
  McpNpOperator_of_value "divide" = Some DIVIDE /\
  exists out error_detected,
    (mcpnp_elementwise_op [1; 2]%float [0; 4]%float "divide").(result) = PList out /\
    (error_detected = true <->
       DIVIDE = DIVIDE /\ exists i b, nth_error [0; 4]%float i = Some b /\ (b =? 0)%float = true) /\
    ((mcpnp_elementwise_op [1; 2]%float [0; 4]%float "divide").(status) = "ok" <->
       ~ In ElNan out /\ error_detected = false) /\
    ((mcpnp_elementwise_op [1; 2]%float [0; 4]%float "divide").(status) = "error" <->
       In ElNan out \/ error_detected = true).
Proof.
  split; [reflexivity | split; [reflexivity |]].
  apply elementwise_success_flag; reflexivity.
Defined.

Lemma elementwise_arith_ok_witness :
  In ("add", add) [("add", add); ("subtract", sub); ("multiply", mul)] /\
  List.length [1; 2]%float = List.length [3; 4]%float /\
  finite_all [1; 2]%float /\ finite_all [3; 4]%float /\
  (mcpnp_elementwise_op [1; 2]%float [3; 4]%float "add").(status) = "ok" /\
  exists out,
    (mcpnp_elementwise_op [1; 2]%float [3; 4]%float "add").(result) = PList out /\
    List.length out = List.length [1; 2]%float /\
    (forall i a b, nth_error [1; 2]%float i = Some a -> nth_error [3; 4]%float i = Some b ->
       nth_error out i = Some (ElNum (add a b))).
Proof.
  split; [left; reflexivity |].
  split; [reflexivity | split; [repeat constructor | split; [repeat constructor |]]].
  apply elementwise_arith_ok; [left; reflexivity | reflexivity | repeat constructor ..].
Defined.

Lemma elementwise_empty_ok_witness :
  In "divide" ["add"; "subtract"; "multiply"; "divide"] /\
  mcpnp_elementwise_op [] [] "divide" =
    {| result := PList []; status := "ok"; message := "McpNp elementwise_op successful" |}.
Proof.
  split; [simpl; auto |].
  apply elementwise_empty_ok. simpl; auto.
Defined.

Lemma elementwise_precondition_error_witness :
  (List.length [1; 2]%float <> List.length [1]%float \/
   ~ In "add" ["add"; "subtract"; "multiply"; "divide"]) /\
  mcpnp_elementwise_op [1; 2]%float [1]%float "add" =
    {| result := PText ""; status := "error";
       message := "McpNp elementwise_op failed with error: " ++
         (if Nat.eqb (List.length [1; 2]%float) (List.length [1]%float)
          then PyStr.repr "add" ++ " is not a valid McpNpOperator"
          else "Input lists must be of equal length.") |}.
Proof.
  split; [left; simpl; lia |].
  apply elementwise_precondition_error. left; simpl; lia.
Defined.

Lemma elementwise_divide_message_last_zero_witness :
  List.length [1; 2; 3]%float = List.length [0; 0; 5]%float /\
  nth_error [0; 0; 5]%float 1 = Some 0%float /\ (0 =? 0)%float = true /\
  (forall j b', (1 < j)%nat -> nth_error [0; 0; 5]%float j = Some b' -> (b' =? 0)%float = false) /\
  (mcpnp_elementwise_op [1; 2; 3]%float [0; 0; 5]%float "divide").(status) = "error" /\
  (mcpnp_elementwise_op [1; 2; 3]%float [0; 0; 5]%float "divide").(message) =
    "McpNp elementwise_op failed: Division by zero at index " ++ PyStr.str_int 1 ++ ". ".
Proof.
  assert (Hlast : forall j b', (1 < j)%nat -> nth_error [0; 0; 5]%float j = Some b' ->
                    (b' =? 0)%float = false).
  { intros [|[|[|j]]] b' Hj Hn; simpl in Hn; try lia;
      [injection Hn as <-; reflexivity | destruct j; discriminate]. }
  split; [reflexivity | split; [reflexivity | split; [reflexivity | split; [exact Hlast |]]]].
  apply (elementwise_divide_message_last_zero _ _ 1 0%float); [reflexivity | reflexivity | reflexivity | exact Hlast].
Defined.

(** ** Further properties of the handlers *)

(** X2: the constant tool answers each enum value with status [ok], a result
    holding that name and its table value, and the "returned" message. *)
Theorem constant_lookup_member (c : McpNpConstant) :
  mcpnp_constant (McpNpConstant_value c) =
    {| result := PConstant (McpNpConstant_value c) (constant_number c); status := "ok";
       message := "Constant '" ++ McpNpConstant_value c ++ "' returned." |}.
Proof. destruct c; vm_compute; reflexivity. Qed.

(** X3: any name that is not one of the eight enum values gets status [error],
    an empty result and the "not supported" message. *)
Theorem constant_lookup_absent (name : string) :
  (forall c, McpNpConstant_value c <> name) ->
  mcpnp_constant name =
    {| result := PText ""; status := "error";
       message := "Constant '" ++ name ++ "' is not supported." |}.
Proof.
  intros H. unfold mcpnp_constant, MCPNP_CONSTANT_VALUES.
  rewrite (dict_get_absent McpNpConstant_value constant_number _ name H). reflexivity.
Qed.

(** X5: [add] is symmetric in its two lists: swapping [list_a] and [list_b]
    gives the same envelope, on every input (NaN and signed zeros included). *)
Theorem elementwise_add_symmetric (A B : list float) :
  mcpnp_elementwise_op A B "add" = mcpnp_elementwise_op B A "add".
Proof.
  destruct (Nat.eqb_spec (List.length A) (List.length B)) as [E|E].
  - unfold mcpnp_elementwise_op.
    rewrite (elementwise_try_equal A B _ E), (elementwise_try_equal B A _ (eq_sym E)).
    assert (Hop : McpNpOperator_of_value "add" = Some ADD) by reflexivity.
    rewrite Hop, (zip_with_comm add A B add_comm). reflexivity.
  - unfold mcpnp_elementwise_op, elementwise_try.
    rewrite (proj2 (Nat.eqb_neq _ _) E), (proj2 (Nat.eqb_neq _ _) (not_eq_sym E)).
    reflexivity.
Qed.

(** X6: the same symmetry for [multiply]. *)
Theorem elementwise_multiply_symmetric (A B : list float) :
  mcpnp_elementwise_op A B "multiply" = mcpnp_elementwise_op B A "multiply".
Proof.
  destruct (Nat.eqb_spec (List.length A) (List.length B)) as [E|E].
  - unfold mcpnp_elementwise_op.
    rewrite (elementwise_try_equal A B _ E), (elementwise_try_equal B A _ (eq_sym E)).
    assert (Hop : McpNpOperator_of_value "multiply" = Some MULTIPLY) by reflexivity.
    rewrite Hop, (zip_with_comm mul A B mul_comm). reflexivity.
  - unfold mcpnp_elementwise_op, elementwise_try.
    rewrite (proj2 (Nat.eqb_neq _ _) E), (proj2 (Nat.eqb_neq _ _) (not_eq_sym E)).
    reflexivity.
Qed.

(** X7: when both preconditions hold, the result is a list with one entry per
    input position, for every operator and every float input. *)
Theorem elementwise_result_length (A B : list float) (operator : string) (o : McpNpOperator) :
  List.length A = List.length B -> McpNpOperator_of_value operator = Some o ->
  exists out,
    (mcpnp_elementwise_op A B operator).(result) = PList out /\
    List.length out = List.length A.
Proof.
  intros Hlen Hop. unfold mcpnp_elementwise_op.
  rewrite elementwise_try_equal, Hop by exact Hlen.
  assert (Hgen : forall f err msg,
    exists out, (elementwise_respond (Np.zip_with f A B) err msg).(result) = PList out /\
                List.length out = List.length A).
  { intros f err msg. rewrite respond_result. eexists; split; [reflexivity|].
    unfold to_result_list. rewrite length_map. apply length_zip_with, Hlen. }
  destruct o; [apply Hgen | apply Hgen | | apply Hgen].
  pose proof (divide_loop_result 0 A B [] false "") as Hres.
  destruct (divide_loop 0 A B [] false "") as [[r err] msg]; simpl in Hres.
  subst r. apply Hgen.
Qed.

(** X8: for [add], [subtract] or [multiply], if some position gives NaN (say an
    infinity minus itself), that position holds the NaN sentinel, the status is
    [error] and the message is the generic NaN fallback. *)
Theorem elementwise_nan_fallback (A B : list float) (operator : string)
    (f : float -> float -> float) (i : nat) (a b : float) :
  In (operator, f) [("add", add); ("subtract", sub); ("multiply", mul)] ->
  List.length A = List.length B ->
  nth_error A i = Some a -> nth_error B i = Some b -> is_nan (f a b) = true ->
  (mcpnp_elementwise_op A B operator).(status) = "error" /\
  (mcpnp_elementwise_op A B operator).(message) =
    "McpNp elementwise_op failed: One or more results are NaN." /\
  exists out,
    (mcpnp_elementwise_op A B operator).(result) = PList out /\ nth_error out i = Some ElNan.
Proof.
  intros Hin Hlen Ha Hb Hnan.
  assert (Hgen : forall g, is_nan (g a b) = true ->
    (elementwise_respond (Np.zip_with g A B) false "").(status) = "error" /\
    (elementwise_respond (Np.zip_with g A B) false "").(message) =
      "McpNp elementwise_op failed: One or more results are NaN." /\
    exists out,
      (elementwise_respond (Np.zip_with g A B) false "").(result) = PList out /\
      nth_error out i = Some ElNan).
  { intros g Hg.
    assert (Hi : nth_error (to_result_list (Np.zip_with g A B)) i = Some ElNan).
    { unfold to_result_list. rewrite nth_error_map, (nth_error_zip_with g A B i a b Ha Hb).
      simpl. rewrite Hg. reflexivity. }
    assert (Hex : existsb is_nan_sentinel (to_result_list (Np.zip_with g A B)) = true).
    { apply existsb_nan_sentinel_In. exact (nth_error_In _ _ Hi). }
    unfold elementwise_respond. rewrite Hex. simpl.
    split; [reflexivity | split; [reflexivity |]]. eauto. }
  unfold mcpnp_elementwise_op. rewrite elementwise_try_equal by exact Hlen.
  destruct Hin as [Hop|[Hop|[Hop|[]]]]; injection Hop as <- <-; simpl; apply Hgen, Hnan.
Qed.

(** X9: [divide] on equal-length finite inputs with no zero divisor succeeds:
    status [ok], the list of quotients, and the success message. *)
Theorem elementwise_divide_ok (A B : list float) :
  List.length A = List.length B -> finite_all A -> finite_all B ->
  Forall (fun b => (b =? 0)%float = false) B ->
  mcpnp_elementwise_op A B "divide" =
    {| result := PList (map ElNum (Np.zip_with div A B)); status := "ok";
       message := "McpNp elementwise_op successful" |}.
Proof.
  intros Hlen HA HB HZ.
  unfold mcpnp_elementwise_op. rewrite elementwise_try_equal by exact Hlen. simpl.
  pose proof (divide_loop_result 0 A B [] false "") as Hres.
  pose proof (divide_loop_flag 0 A B [] false "") as Hflag.
  destruct (divide_loop 0 A B [] false "") as [[r err] msg]; simpl in Hres, Hflag.
  subst r err. simpl.
  assert (Hz : zero_flag A B = false).
  { destruct (zero_flag A B) eqn:E; [|reflexivity].
    apply (zero_flag_iff A B Hlen) in E as [i [b [Hb Hb0]]].
    rewrite (proj1 (Forall_forall _ _) HZ b (nth_error_In _ _ Hb)) in Hb0. discriminate. }
  unfold elementwise_respond.
  rewrite Hz, zip_with_divq_nonzero, to_result_list_div_no_nan, existsb_ElNum by assumption.
  reflexivity.
Qed.

(** X10: [divide] puts the NaN sentinel at every position whose divisor
    compares equal to zero ([0.0] or [-0.0]) and reports status [error], for
    any float dividends, NaN and infinities included. *)
Theorem elementwise_divide_zero_sentinel (A B : list float) (i : nat) (b : float) :
  List.length A = List.length B -> nth_error B i = Some b -> (b =? 0)%float = true ->
  (mcpnp_elementwise_op A B "divide").(status) = "error" /\
  exists out,
    (mcpnp_elementwise_op A B "divide").(result) = PList out /\
    List.length out = List.length A /\ nth_error out i = Some ElNan.
Proof.
  intros Hlen Hb Hz.
  destruct (nth_error_same_length A B i b Hlen Hb) as [a Ha].
  unfold mcpnp_elementwise_op. rewrite elementwise_try_equal by exact Hlen. simpl.
  pose proof (divide_loop_result 0 A B [] false "") as Hres.
  pose proof (divide_loop_flag 0 A B [] false "") as Hflag.
  destruct (divide_loop 0 A B [] false "") as [[r err] msg]; simpl in Hres, Hflag.
  subst r err. simpl.
  assert (Hzf : zero_flag A B = true) by (apply zero_flag_iff; eauto).
  split; [rewrite respond_status, Hzf; reflexivity|].
  rewrite respond_result. eexists; split; [reflexivity | split].
  - unfold to_result_list. rewrite length_map. apply length_zip_with, Hlen.
  - unfold to_result_list. rewrite nth_error_map, (nth_error_zip_with divq A B i a b Ha Hb).
    unfold divq. rewrite Hz. reflexivity.
Qed.

(** ** Witnesses of the further properties *)

Lemma constant_lookup_absent_witness :
  (forall c, McpNpConstant_value c <> "SPEED_OF_LIGHT") /\
  mcpnp_constant "SPEED_OF_LIGHT" =
    {| result := PText ""; status := "error";
       message := "Constant '" ++ "SPEED_OF_LIGHT" ++ "' is not supported." |}.
Proof.
  assert (H : forall c, McpNpConstant_value c <> "SPEED_OF_LIGHT") by (intros []; discriminate).
  split; [exact H | apply constant_lookup_absent, H].
Defined.

Lemma elementwise_result_length_witness :
  List.length [1; 2]%float = List.length [0; 4]%float /\
  McpNpOperator_of_value "divide" = Some DIVIDE /\
  exists out,
    (mcpnp_elementwise_op [1; 2]%float [0; 4]%float "divide").(result) = PList out /\
    List.length out = List.length [1; 2]%float.
Proof.
  split; [reflexivity | split; [reflexivity |]].
  apply (elementwise_result_length _ _ _ DIVIDE); reflexivity.
Defined.

Lemma elementwise_nan_fallback_witness :
  In ("add", add) [("add", add); ("subtract", sub); ("multiply", mul)] /\
  List.length [infinity] = List.length [neg_infinity] /\
  nth_error [infinity] 0 = Some infinity /\ nth_error [neg_infinity] 0 = Some neg_infinity /\
  is_nan (add infinity neg_infinity) = true /\
  (mcpnp_elementwise_op [infinity] [neg_infinity] "add").(status) = "error" /\
  (mcpnp_elementwise_op [infinity] [neg_infinity] "add").(message) =
    "McpNp elementwise_op failed: One or more results are NaN." /\
  exists out,
    (mcpnp_elementwise_op [infinity] [neg_infinity] "add").(result) = PList out /\
    nth_error out 0 = Some ElNan.
Proof.
  split; [left; reflexivity |].
  split; [reflexivity | split; [reflexivity | split; [reflexivity | split; [reflexivity |]]]].
  apply (elementwise_nan_fallback _ _ _ add 0 infinity neg_infinity);
    [left | | | |]; reflexivity.
Defined.

Lemma elementwise_divide_ok_witness :
  List.length [8; 6; 4]%float = List.length [2; 3; 4]%float /\
  finite_all [8; 6; 4]%float /\ finite_all [2; 3; 4]%float /\
  Forall (fun b => (b =? 0)%float = false) [2; 3; 4]%float /\
  mcpnp_elementwise_op [8; 6; 4]%float [2; 3; 4]%float "divide" =
    {| result := PList (map ElNum (Np.zip_with div [8; 6; 4]%float [2; 3; 4]%float));
       status := "ok"; message := "McpNp elementwise_op successful" |}.
Proof.
  split; [reflexivity | split; [repeat constructor | split; [repeat constructor |]]].
  split; [repeat constructor |].
  apply elementwise_divide_ok; [reflexivity | repeat constructor ..].
Defined.

Lemma elementwise_divide_zero_sentinel_witness :
  List.length [nan] = List.length [neg_zero] /\
  nth_error [neg_zero] 0 = Some neg_zero /\ (neg_zero =? 0)%float = true /\
  (mcpnp_elementwise_op [nan] [neg_zero] "divide").(status) = "error" /\
  exists out,
    (mcpnp_elementwise_op [nan] [neg_zero] "divide").(result) = PList out /\
    List.length out = List.length [nan] /\ nth_error out 0 = Some ElNan.
Proof.
  split; [reflexivity | split; [reflexivity | split; [reflexivity |]]].
  apply (elementwise_divide_zero_sentinel _ _ 0 neg_zero); reflexivity.
Defined.

(** numpy's block grouping in [Np.sum]: ten copies of [0.1] sum to exactly
    [1.0], where adding them left to right gives [0.9999999999999999]. *)
Example np_sum_tenths :
  Np.sum (repeat 0.1 10)%float = 1%float /\ Np.add_seq 0 (repeat 0.1 10)%float <> 1%float.
Proof. split; vm_compute; [reflexivity | discriminate]. Qed.
